(** * fetch_pairs.py: the CoinMarketCap / Binance watchlist updater

    A shallow embedding of [src/fetch_pairs.py] and the properties of its
    matching, truncation, de-duplication and append logic.

    Modelling conventions.
    - A Python [str] is a list of Unicode code points ([list N]); string
      literals of the source are written [lit "..."].
    - Python sets of strings are [gset str].
    - Python values decoded from JSON are the inductive [pyval].
    - A raised exception is the [Raise] branch of [result]; code that
      touches the file system or prints runs in the state-and-exception
      monad [M] over [world].
    - [str.upper] is driven by the Unicode case tables, which are not part
      of the program: the embedding takes it as the section variable
      [upper]; [ascii_upper] is its restriction to ASCII input, used for
      the concrete runs. *)

From Stdlib Require Import ZArith NArith Ascii String.
From stdpp Require Import base decidable option list sets gmap strings pretty.

Local Open Scope Z_scope.
Local Open Scope list_scope.
#[local] Set Warnings "-register-all".

(** ** Strings *)

Definition char := N.
Definition str := list char.

(** The code points of a literal of the source. *)
Definition lit (s : string) : str := map N_of_ascii (list_ascii_of_string s).

Definition LF : char := 10%N.
Definition CR : char := 13%N.
Definition SLASH : char := 47%N.

(** [str.isspace] on one code point, as [str.strip()] uses it: the ASCII
    range 0x09-0x0D, 0x1C-0x20, and the Unicode white space above it. *)
Definition isspace (c : char) : bool :=
  ((9 <=? c) && (c <=? 13) || (28 <=? c) && (c <=? 32)
   || (c =? 133) || (c =? 160) || (c =? 5760)
   || (8192 <=? c) && (c <=? 8202)
   || (c =? 8232) || (c =? 8233) || (c =? 8239) || (c =? 8287)
   || (c =? 12288))%N.

Fixpoint lstrip (s : str) : str :=
  match s with
  | c :: r => if isspace c then lstrip r else s
  | [] => []
  end.

Definition rstrip (s : str) : str := reverse (lstrip (reverse s)).

(** [s.strip()] *)
Definition strip (s : str) : str := rstrip (lstrip s).

(** [s.endswith(suffix)] *)
Definition endswith (s suffix : str) : bool :=
  bool_decide (drop (length s - length suffix)%nat s = suffix).

(** [s.split("/")[0]]: everything before the first slash, the whole
    string when there is none. *)
Fixpoint split_head (s : str) : str :=
  match s with
  | [] => []
  | c :: r => if (c =? SLASH)%N then [] else c :: split_head r
  end.

(** [str.upper] on ASCII input: a-z go to A-Z, the rest stays. *)
Definition ascii_upper_char (c : char) : char :=
  if ((97 <=? c) && (c <=? 122))%N then (c - 32)%N else c.
Definition ascii_upper (s : str) : str := map ascii_upper_char s.

(** Iterating over a file opened in text mode (universal newlines): the
    content is cut after each line terminator, and the terminators "\n",
    "\r" and "\r\n" all reach the program as "\n".  [cur] is the part of
    the current line already read. *)
Fixpoint iter_lines (cur : str) (s : str) : list str :=
  match s with
  | [] => match cur with [] => [] | _ => [cur] end
  | c :: r =>
      if (c =? LF)%N then (cur ++ [LF]) :: iter_lines [] r
      else if (c =? CR)%N then
        match r with
        | c' :: r' =>
            if (c' =? LF)%N then (cur ++ [LF]) :: iter_lines [] r'
            else (cur ++ [LF]) :: iter_lines [] r
        | [] => [cur ++ [LF]]
        end
      else iter_lines (cur ++ [c]) r
  end.

Definition file_lines (content : str) : list str := iter_lines [] content.

(** [l[:stop]] for a Python int [stop]: a negative [stop] counts from the
    end of the list, and both ends are clamped. *)
Definition slice_to {A} (l : list A) (stop : Z) : list A :=
  if stop <? 0 then take (Z.to_nat (Z.of_nat (length l) + stop)) l
  else take (Z.to_nat stop) l.

(** ** Python values, exceptions *)

(** What [response.json()] can return.  A dict keeps its items in
    insertion order; its keys are distinct. *)
Inductive pyval :=
| PyNone
| PyBool (b : bool)
| PyNum (z : Z)
| PyStr (s : str)
| PyList (xs : list pyval)
| PyDict (items : list (str * pyval)).

Inductive exn :=
| HTTPError | ConnectionError | JSONDecodeError | ExchangeError
| TypeError | KeyError | AttributeError
| FileNotFoundError | PermissionError.

Global Instance exn_eq_dec : EqDecision exn.
Proof. solve_decision. Defined.

Inductive result (A : Type) :=
| Ok (a : A)
| Raise (e : exn).
Arguments Ok {A} a.
Arguments Raise {A} e.

Global Instance result_ret : MRet result := λ A a, Ok a.
Global Instance result_bind : MBind result := λ A B f r,
  match r with
  | Ok a => f a
  | Raise e => Raise e
  end.

(** [d[key]] on the items of a dict *)
Fixpoint dict_get (items : list (str * pyval)) (key : str) : option pyval :=
  match items with
  | [] => None
  | (k, v) :: r => if decide (k = key) then Some v else dict_get r key
  end.

(** [sub in s] for two strings *)
Fixpoint str_contains (s sub : str) : bool :=
  bool_decide (sub `prefix_of` s)
  || match s with [] => false | _ :: r => str_contains r sub end.

(** [key in v] for a string [key] *)
Definition py_contains (v : pyval) (key : str) : result bool :=
  match v with
  | PyDict items => Ok (bool_decide (is_Some (dict_get items key)))
  | PyList xs =>
      Ok (existsb (λ x, match x with PyStr s => bool_decide (s = key) | _ => false end) xs)
  | PyStr s => Ok (str_contains s key)
  | PyNone | PyBool _ | PyNum _ => Raise TypeError
  end.

(** [v[key]] for a string [key] *)
Definition py_getitem (v : pyval) (key : str) : result pyval :=
  match v with
  | PyDict items =>
      match dict_get items key with
      | Some x => Ok x
      | None => Raise KeyError
      end
  | _ => Raise TypeError
  end.

(** The values a [for x in v] loop visits. *)
Definition py_iter (v : pyval) : result (list pyval) :=
  match v with
  | PyList xs => Ok xs
  | PyDict items => Ok (fmap (λ kv, PyStr kv.1) items)
  | PyStr s => Ok (fmap (λ c, PyStr [c]) s)
  | PyNone | PyBool _ | PyNum _ => Raise TypeError
  end.

(** ** The world: the file system, and what the run did to it *)

(** A path that is absent from the map does not exist; [NoAccess] stands
    for a path [open] refuses with a permission error. *)
Inductive fnode :=
| Regular (content : str)
| NoAccess.

Global Instance fnode_eq_dec : EqDecision fnode.
Proof. solve_decision. Defined.

Inductive mode := ModeR | ModeA.

Global Instance mode_eq_dec : EqDecision mode.
Proof. solve_decision. Defined.

Inductive event :=
| EvOpen (filename : str) (m : mode)
| EvWrite (filename : str) (data : str)
| EvPrint (msg : str).

Global Instance event_eq_dec : EqDecision event.
Proof. solve_decision. Defined.

Record world := World {
  fs : gmap str fnode;
  trace : list event
}.

Definition emit (e : event) (w : world) : world :=
  {| fs := fs w; trace := trace w ++ [e] |}.

(** State and exceptions: the state survives a raise. *)
Definition M (A : Type) : Type := world → result A * world.

Global Instance M_ret : MRet M := λ A a w, (Ok a, w).
Global Instance M_bind : MBind M := λ A B f m w,
  match m w with
  | (Ok a, w') => f a w'
  | (Raise e, w') => (Raise e, w')
  end.

Definition lift {A} (r : result A) : M A := λ w, (r, w).

(** [try: body  except e: handler] *)
Definition try_except {A} (body : M A) (e : exn) (handler : M A) : M A := λ w,
  match body w with
  | (Raise e', w') => if decide (e' = e) then handler w' else (Raise e', w')
  | ok => ok
  end.

Definition print (msg : str) : M unit := λ w, (Ok (), emit (EvPrint msg) w).

(** [open(filename, m)]: mode 'r' needs the file to exist, mode 'a'
    creates it empty when it does not. *)
Definition open_file (filename : str) (m : mode) : M unit := λ w,
  let w := emit (EvOpen filename m) w in
  match fs w !! filename, m with
  | Some (Regular _), _ => (Ok (), w)
  | Some NoAccess, _ => (Raise PermissionError, w)
  | None, ModeR => (Raise FileNotFoundError, w)
  | None, ModeA =>
      (Ok (), {| fs := <[filename := Regular []]> (fs w); trace := trace w |})
  end.

(** The lines of an open file, as [for line in file] yields them. *)
Definition read_lines (filename : str) : M (list str) := λ w,
  match fs w !! filename with
  | Some (Regular content) => (Ok (file_lines content), w)
  | Some NoAccess => (Raise PermissionError, w)
  | None => (Raise FileNotFoundError, w)
  end.

(** [file.write(data)] on a file opened in append mode: the text goes
    to the end of the file as it is (the platform's line separator is
    "\n"). *)
Definition write_file (filename : str) (data : str) : M unit := λ w,
  match fs w !! filename with
  | Some (Regular content) =>
      (Ok (), {| fs := <[filename := Regular (content ++ data)]> (fs w);
                 trace := trace w ++ [EvWrite filename data] |})
  | Some NoAccess => (Raise PermissionError, w)
  | None => (Raise FileNotFoundError, w)
  end.

(** A [for x in xs: body x] loop in [M]. *)
Fixpoint for_each {A} (xs : list A) (body : A → M unit) : M unit :=
  match xs with
  | [] => mret ()
  | x :: r => body x ;; for_each r body
  end.

(** ** The network *)

Record request := Request {
  url : str;
  headers : list (str * str);
  params : list (str * str)
}.

(** [json_body] is [None] when the body does not parse as JSON. *)
Record response := Response {
  status_code : Z;
  json_body : option pyval
}.

(** What the two remote services answer: [requests.get], and the market
    table [exchange.load_markets()] leaves in [exchange.markets] (its
    keys, in order). *)
Record network := Network {
  http_get : request → result response;
  load_markets : result (list str)
}.

(** [response.raise_for_status()] *)
Definition raise_for_status (r : response) : result unit :=
  if (400 <=? status_code r) && (status_code r <? 600) then Raise HTTPError
  else Ok ().

(** [response.json()] *)
Definition response_json (r : response) : result pyval :=
  match json_body r with
  | Some v => Ok v
  | None => Raise JSONDecodeError
  end.

(** ** fetch_top_coins_from_coinmarketcap *)

Definition listings_url : str :=
  lit "https://pro-api.coinmarketcap.com/v1/cryptocurrency/listings/latest".

(** The request of lines 22-37: URL, headers and query parameters. *)
Definition listings_request (api_key : str) (limit : Z)
    (convert sort sort_dir : str) : request :=
  {| url := listings_url;
     headers := [(lit "Accepts", lit "application/json");
                 (lit "X-CMC_PRO_API_KEY", api_key)];
     params := [(lit "start", lit "1");
                (lit "limit", lit (pretty limit));
                (lit "convert", convert);
                (lit "sort", sort);
                (lit "sort_dir", sort_dir)] |}.

Definition data_warning : str :=
  lit "Warning: 'data' not found in CoinMarketCap response.".

Definition fetch_top_coins_from_coinmarketcap (net : network)
    (api_key : str) (limit : Z) (convert sort sort_dir : str) : M pyval :=
  response ← lift (http_get net
                     (listings_request api_key limit convert sort sort_dir));
  lift (raise_for_status response);;
  data ← lift (response_json response);
  has_data ← lift (py_contains data (lit "data"));
  if negb has_data then
    print data_warning;;
    mret (PyList [])
  else
    lift (py_getitem data (lit "data")).

(** ** save_top_pairs_by_market_cap *)

Definition stablecoins : gset str :=
  {[ lit "USDT"; lit "BUSD"; lit "USDC"; lit "TUSD"; lit "USDP";
     lit "DAI"; lit "FDUSD"; lit "PAX"; lit "UST"; lit "USDD" ]}.

Definition USDT_suffix : str := lit "/USDT".

Section Program.
(** [str.upper] *)
Variable upper : str → str.

(** [v.upper()]: only a string has the method. *)
Definition py_upper (v : pyval) : result str :=
  match v with
  | PyStr s => Ok (upper s)
  | _ => Raise AttributeError
  end.

(** Lines 81-83: the upper-cased base symbols of the /USDT markets. *)
Definition binance_bases_of (markets : list str) : gset str :=
  let binance_markets := filter (λ m, endswith m USDT_suffix = true) markets in
  list_to_set (fmap (λ m, upper (split_head m)) binance_markets).

(** Lines 93-102: the loop over the coins; [matched_pairs] is the list
    the loop appends to. *)
Fixpoint match_loop (binance_bases : gset str) (coins : list pyval)
    (matched_pairs : list str) : result (list str) :=
  match coins with
  | [] => Ok matched_pairs
  | coin :: rest =>
      symbol ← py_getitem coin (lit "symbol");
      symbol_upper ← py_upper symbol;
      if decide (symbol_upper ∈ stablecoins) then
        match_loop binance_bases rest matched_pairs
      else if decide (symbol_upper ∈ binance_bases) then
        let pair := symbol_upper ++ USDT_suffix in
        match_loop binance_bases rest (matched_pairs ++ [pair])
      else
        match_loop binance_bases rest matched_pairs
  end.

(** Lines 92-105: the matched pairs, cut to the first [limit]. *)
Definition matched_pairs_of (cmc_coins : pyval) (binance_bases : gset str)
    (limit : Z) : result (list str) :=
  coins ← py_iter cmc_coins;
  matched_pairs ← match_loop binance_bases coins [];
  mret (slice_to matched_pairs limit).

Definition no_file_message (filename : str) : str :=
  lit "No existing file found. Creating new file: " ++ filename.

(** Lines 108-113: the stripped lines of the file, the empty set when
    the file does not exist. *)
Definition read_existing_pairs (filename : str) : M (gset str) :=
  try_except
    (open_file filename ModeR;;
     lines ← read_lines filename;
     mret (list_to_set (strip <$> lines)))
    FileNotFoundError
    (print (no_file_message filename);;
     mret ∅).

(** Line 116 *)
Definition new_pairs_of (matched_pairs : list str)
    (existing_pairs : gset str) : list str :=
  filter (λ p, p ∉ existing_pairs) matched_pairs.

Definition added_message (n : nat) (filename : str) : str :=
  lit "Added " ++ lit (pretty n) ++ lit " new pairs to " ++ filename.

Definition nothing_message : str := lit "No new pairs to add.".

(** Lines 119-125 *)
Definition write_new_pairs (filename : str) (new_pairs : list str) : M unit :=
  match new_pairs with
  | _ :: _ =>
      open_file filename ModeA;;
      for_each new_pairs (λ pair, write_file filename (pair ++ [LF]));;
      print (added_message (length new_pairs) filename)
  | [] => print nothing_message
  end.

(** Lines 91-125: everything after the exchange's base set is known. *)
Definition match_and_save (cmc_coins : pyval) (binance_bases : gset str)
    (filename : str) (limit : Z) : M unit :=
  matched_pairs ← lift (matched_pairs_of cmc_coins binance_bases limit);
  existing_pairs ← read_existing_pairs filename;
  let new_pairs := new_pairs_of matched_pairs existing_pairs in
  write_new_pairs filename new_pairs.

Definition save_top_pairs_by_market_cap (net : network)
    (cmc_api_key : str) (filename : str) (limit : Z) (cmc_limit : Z) : M unit :=
  cmc_coins ← fetch_top_coins_from_coinmarketcap net cmc_api_key cmc_limit
                (lit "USD") (lit "market_cap") (lit "desc");
  markets ← lift (load_markets net);
  let binance_bases := binance_bases_of markets in
  match_and_save cmc_coins binance_bases filename limit.

(** What it means that the loop body, run on [coin], puts [pair] on
    the list. *)
Definition emits (binance_bases : gset str) (coin : pyval) (pair : str) : Prop :=
  ∃ symbol, py_getitem coin (lit "symbol") = Ok (PyStr symbol)
    ∧ (upper symbol ∉ stablecoins)
    ∧ upper symbol ∈ binance_bases
    ∧ pair = upper symbol ++ USDT_suffix.

(** The script's entry point; [environ] is [os.environ]. *)
Definition main (net : network) (environ : gmap str str) : M unit :=
  let CMC_API_KEY := default (lit "xxxx") (environ !! lit "CMC_API_KEY") in
  save_top_pairs_by_market_cap net CMC_API_KEY (lit "top_pairs.txt") 120 300.

End Program.

(** ** What a run leaves behind, stated on the inputs *)

(** The set line 111 computes from the file as it is found. *)
Definition baseline (files : gmap str fnode) (filename : str) : gset str :=
  match files !! filename with
  | Some (Regular content) => list_to_set (strip <$> file_lines content)
  | _ => ∅
  end.

Definition old_content (files : gmap str fnode) (filename : str) : str :=
  match files !! filename with
  | Some (Regular content) => content
  | _ => []
  end.

(** The text the writes of lines 121-122 add up to. *)
Definition appended_data (new_pairs : list str) : str :=
  concat (fmap (λ p, p ++ [LF]) new_pairs).

Definition read_trace (files : gmap str fnode) (filename : str) : list event :=
  EvOpen filename ModeR ::
  match files !! filename with
  | None => [EvPrint (no_file_message filename)]
  | Some _ => []
  end.

Definition write_trace (filename : str) (new_pairs : list str) : list event :=
  match new_pairs with
  | [] => [EvPrint nothing_message]
  | _ :: _ =>
      EvOpen filename ModeA ::
      fmap (λ p, EvWrite filename (p ++ [LF])) new_pairs ++
      [EvPrint (added_message (length new_pairs) filename)]
  end.

Definition files_after (files : gmap str fnode) (filename : str)
    (new_pairs : list str) : gmap str fnode :=
  match new_pairs with
  | [] => files
  | _ :: _ =>
      <[filename := Regular (old_content files filename ++ appended_data new_pairs)]> files
  end.

(** The data of the write events of a trace, in order. *)
Definition writes (t : list event) : list (str * str) :=
  omap (λ e, match e with EvWrite f d => Some (f, d) | _ => None end) t.

(** The modes in which a trace opens files. *)
Definition opens (t : list event) : list (str * mode) :=
  omap (λ e, match e with EvOpen f m => Some (f, m) | _ => None end) t.



(** ** Inputs of the concrete runs *)

(** A coin object of the listings response; only its 'symbol' is read. *)
Definition coin (symbol : string) (cmc_rank : Z) : pyval :=
  PyDict [(lit "cmc_rank", PyNum cmc_rank); (lit "symbol", PyStr (lit symbol))].

Definition top_pairs_txt : str := lit "top_pairs.txt".

(** A successful listings response holding [coins]. *)
Definition listing (coins : list pyval) : response :=
  {| status_code := 200;
     json_body := Some (PyDict [(lit "status", PyDict [(lit "error_code", PyNum 0)]);
                                (lit "data", PyList coins)]) |}.

(** A network that answers every request with [resp] and whose exchange
    lists [markets]. *)
Definition net_of (resp : response) (markets : list string) : network :=
  {| http_get := λ _, Ok resp; load_markets := Ok (lit <$> markets) |}.

Definition line (p : string) : str := lit p ++ [LF].

Definition two_coins : pyval := PyList [coin "BTC" 1; coin "ETH" 2].
Definition three_bases : gset str := {[ lit "BTC"; lit "ETH"; lit "SOL" ]}.

(** A watchlist file that holds the one line BTC/USDT. *)
Definition one_line_file : gmap str fnode :=
  {[ top_pairs_txt := Regular (line "BTC/USDT") ]}.

(** A response with a success status whose JSON object has no 'data'. *)
Definition no_data_response : response :=
  {| status_code := 200;
     json_body := Some (PyDict [(lit "status", PyDict [(lit "error_code", PyNum 0)])]) |}.

(** ** Further notions for the whole script *)

(** A coin the loop body can process: a dict whose 'symbol' is a string. *)
Definition has_symbol (coin : pyval) (symbol : str) : Prop :=
  py_getitem coin (lit "symbol") = Ok (PyStr symbol).

Definition well_formed_coin (coin : pyval) : Prop :=
  ∃ symbol, has_symbol coin symbol.

(** The events of a trace that name a file, with the file they name. *)
Definition touched (t : list event) : list str :=
  omap (λ e, match e with
             | EvOpen f _ | EvWrite f _ => Some f
             | EvPrint _ => None
             end) t.

(** The messages a trace prints, in order. *)
Definition printed (t : list event) : list str :=
  omap (λ e, match e with EvPrint msg => Some msg | _ => None end) t.

(** A response the provider sends for a key it does not accept. *)
Definition denied_response : response :=
  {| status_code := 401;
     json_body := Some (PyDict [(lit "status", PyDict [(lit "error_code", PyNum 1001)])]) |}.

(** A network whose exchange cannot be reached. *)
Definition net_without_exchange (resp : response) : network :=
  {| http_get := λ _, Ok resp; load_markets := Raise ExchangeError |}.

(** A watchlist path that cannot be opened. *)
Definition locked_file : gmap str fnode := {[ top_pairs_txt := NoAccess ]}.

(** Closes a decidable goal on concrete inputs by evaluation. *)
Ltac by_compute := apply (bool_decide_unpack _); vm_compute; exact I.

Ltac unfold_monad :=
  unfold mbind, mret, M_bind, M_ret, result_bind, result_ret, lift,
    try_except, print, emit in *; simpl in *.

(** ** The string operations on examples *)

Example lines_ex :
  file_lines (lit "BTC/USDT" ++ [LF] ++ lit " ETH/USDT " ++ [CR; LF] ++ lit "x")
  = [lit "BTC/USDT" ++ [LF]; lit " ETH/USDT " ++ [LF]; lit "x"].
Proof. vm_compute. reflexivity. Qed.

Example strip_ex : strip (lit "  ETH/USDT " ++ [CR; LF]) = lit "ETH/USDT".
Proof. vm_compute. reflexivity. Qed.

Example slice_ex : slice_to [1;2;3] (-1) = [1;2] /\ slice_to [1;2;3] 2 = [1;2]
  /\ slice_to [1;2;3] 10 = [1;2;3] /\ slice_to [1;2;3] (-7) = [].
Proof. vm_compute. repeat split. Qed.

Example endswith_ex : endswith (lit "BTC/USDT") (lit "/USDT") = true
  /\ endswith (lit "BTC/USD") (lit "/USDT") = false
  /\ endswith (lit "USDT") (lit "/USDT") = false.
Proof. vm_compute. repeat split. Qed.

Section Facts.
Variable upper : str → str.

(** *** The matching loop *)

Lemma match_loop_acc bases coins acc :
  match_loop upper bases coins acc
  = (r ← match_loop upper bases coins []; mret (acc ++ r)).
Proof.
  revert acc. induction coins as [|coin rest IH]; intros acc.
  - simpl. unfold mret, result_ret. by rewrite app_nil_r.
  - simpl. destruct (py_getitem coin (lit "symbol")) as [v|e]; simpl; [|done].
    destruct (py_upper upper v) as [s|e]; simpl; [|done].
    repeat case_decide; try apply IH.
    rewrite (IH (acc ++ _)), (IH [_]).
    destruct (match_loop upper bases rest []); simpl; [|done].
    unfold mret, result_ret. by rewrite <-app_assoc.
Qed.

Lemma match_loop_spec bases coins all :
  match_loop upper bases coins [] = Ok all →
  ∃ kept, kept `sublist_of` coins ∧ Forall2 (emits upper bases) kept all.
Proof.
  revert all. induction coins as [|coin rest IH]; intros all.
  - simpl. intros [= <-]. exists []. split; constructor.
  - simpl. destruct (py_getitem coin (lit "symbol")) as [v|e] eqn:Hget; simpl; [|done].
    destruct v as [| | |s| |]; simpl; try done.
    case_decide as Hs.
    { intros H. destruct (IH _ H) as (kept & ? & ?).
      exists kept. split; [by constructor|done]. }
    case_decide as Hb.
    + rewrite match_loop_acc.
      destruct (match_loop upper bases rest []) as [r|e] eqn:Hr; simpl; [|done].
      intros [= <-]. destruct (IH _ eq_refl) as (kept & ? & ?).
      exists (coin :: kept). split; [by constructor|].
      constructor; [|done]. by exists s.
    + intros H. destruct (IH _ H) as (kept & ? & ?).
      exists kept. split; [by constructor|done].
Qed.

(** *** Truncation *)

Lemma slice_to_take {A} (l : list A) (stop : Z) :
  ∃ n, slice_to l stop = take n l.
Proof. unfold slice_to. case_match; eauto. Qed.

Lemma slice_to_nonneg {A} (l : list A) (stop : Z) :
  0 ≤ stop → slice_to l stop = take (Z.to_nat stop) l.
Proof. intros. unfold slice_to. case_match; [lia|done]. Qed.

Lemma slice_to_length_nonneg {A} (l : list A) (stop : Z) :
  0 ≤ stop → Z.of_nat (length (slice_to l stop)) ≤ stop.
Proof. intros. rewrite slice_to_nonneg, length_take by done. lia. Qed.

Lemma slice_to_length_neg {A} (l : list A) (stop : Z) :
  stop < 0 →
  Z.of_nat (length (slice_to l stop)) = Z.max 0 (Z.of_nat (length l) + stop).
Proof.
  intros. unfold slice_to. case_match; [|lia]. rewrite length_take. lia.
Qed.

Lemma matched_pairs_of_inv cmc bases limit matched :
  matched_pairs_of upper cmc bases limit = Ok matched →
  ∃ coins all, py_iter cmc = Ok coins
    ∧ match_loop upper bases coins [] = Ok all
    ∧ matched = slice_to all limit.
Proof.
  unfold matched_pairs_of. unfold_monad.
  destruct (py_iter cmc) as [coins|]; [|done].
  destruct (match_loop upper bases coins []) as [all|] eqn:Hloop; [|done].
  intros [= <-]. by exists coins, all.
Qed.

Lemma Forall2_sublist_r {A B} (R : A → B → Prop) l k k' :
  Forall2 R l k → k' `sublist_of` k →
  ∃ l', l' `sublist_of` l ∧ Forall2 R l' k'.
Proof.
  intros HR. revert k'. induction HR as [|x y l k Hxy HR IH]; intros k' Hsub.
  - apply sublist_nil_r in Hsub as ->. exists []. split; constructor.
  - inversion Hsub as [|? k1 ? Hs|? ? ? Hs]; subst.
    + destruct (IH _ Hs) as (l' & ? & ?).
      exists (x :: l'). split; by constructor.
    + destruct (IH _ Hs) as (l' & ? & ?).
      exists l'. split; [by constructor|done].
Qed.

(** Every matched pair comes from a coin, and the coins behind the
    matched pairs stand in the coin list in the same order. *)
Lemma matched_pairs_of_spec cmc bases limit matched :
  matched_pairs_of upper cmc bases limit = Ok matched →
  ∃ coins kept, py_iter cmc = Ok coins
    ∧ kept `sublist_of` coins
    ∧ Forall2 (emits upper bases) kept matched.
Proof.
  intros (coins & all & Hit & Hloop & ->)%matched_pairs_of_inv.
  apply match_loop_spec in Hloop as (kept & Hsub & HF).
  destruct (slice_to_take all limit) as [n ->].
  destruct (Forall2_sublist_r _ _ _ (take n all) HF (sublist_take _ _))
    as (kept' & ? & ?).
  exists coins, kept'. split_and!; [done| |done]. by etrans.
Qed.

(** *** Reading and writing the file *)

Lemma read_existing_pairs_run files filename t :
  read_existing_pairs filename (World files t)
  = match files !! filename with
    | Some NoAccess =>
        (Raise PermissionError, World files (t ++ [EvOpen filename ModeR]))
    | _ => (Ok (baseline files filename),
            World files (t ++ read_trace files filename))
    end.
Proof.
  unfold read_existing_pairs, open_file, read_lines, baseline, read_trace.
  unfold_monad.
  destruct (files !! filename) as [[c|]|] eqn:Hf; simpl; rewrite ?Hf; simpl.
  - done.
  - done.
  - by rewrite <-app_assoc.
Qed.

Lemma for_each_write_run filename new_pairs files content t :
  files !! filename = Some (Regular content) →
  for_each new_pairs (λ pair, write_file filename (pair ++ [LF])) (World files t)
  = (Ok (),
     World (<[filename := Regular (content ++ appended_data new_pairs)]> files)
           (t ++ fmap (λ p, EvWrite filename (p ++ [LF])) new_pairs)).
Proof.
  revert files content t.
  induction new_pairs as [|p new_pairs IH]; intros files content t Hf.
  - simpl. unfold mret, M_ret, appended_data. simpl.
    rewrite !app_nil_r. by rewrite insert_id.
  - simpl. unfold mbind at 1, M_bind at 1, write_file at 1. simpl. rewrite Hf.
    erewrite IH by apply lookup_insert_eq.
    rewrite insert_insert_eq. unfold appended_data. simpl.
    by rewrite <-!app_assoc.
Qed.

Lemma write_new_pairs_run files filename new_pairs t :
  files !! filename ≠ Some NoAccess →
  write_new_pairs filename new_pairs (World files t)
  = (Ok (), World (files_after files filename new_pairs)
                  (t ++ write_trace filename new_pairs)).
Proof.
  intros Hf. destruct new_pairs as [|p new_pairs]; [done|].
  unfold write_new_pairs, files_after, write_trace, old_content.
  unfold mbind, M_bind, open_file, emit. cbn [fs trace].
  destruct (files !! filename) as [[c|]|] eqn:Hfile; [|done|].
  - erewrite for_each_write_run by done.
    unfold print, emit. cbn [fs trace]. by rewrite <-!app_assoc.
  - erewrite for_each_write_run by apply lookup_insert_eq.
    unfold print, emit. cbn [fs trace]. rewrite insert_insert_eq.
    by rewrite <-!app_assoc.
Qed.

(** A run on accessible files, in closed form. *)
Lemma match_and_save_run cmc bases filename limit files t matched :
  matched_pairs_of upper cmc bases limit = Ok matched →
  files !! filename ≠ Some NoAccess →
  let new_pairs := new_pairs_of matched (baseline files filename) in
  match_and_save upper cmc bases filename limit (World files t)
  = (Ok (), World (files_after files filename new_pairs)
                  (t ++ read_trace files filename
                     ++ write_trace filename new_pairs)).
Proof.
  intros Hm Hf new_pairs. unfold match_and_save.
  unfold mbind at 1, M_bind at 1, lift. rewrite Hm.
  unfold mbind, M_bind. rewrite read_existing_pairs_run.
  destruct (files !! filename) as [[c|]|] eqn:Hfile; [|done|].
  - rewrite write_new_pairs_run by by rewrite Hfile.
    by rewrite <-app_assoc.
  - rewrite write_new_pairs_run by by rewrite Hfile.
    by rewrite <-app_assoc.
Qed.

(** A run never changes the file system before line 120. *)
Lemma match_and_save_raise cmc bases filename limit files t e w' :
  match_and_save upper cmc bases filename limit (World files t) = (Raise e, w') →
  fs w' = files ∧ writes (trace w') = writes t
  ∧ (∀ f, (f, ModeA) ∈ opens (trace w') → (f, ModeA) ∈ opens t).
Proof.
  destruct (matched_pairs_of upper cmc bases limit) as [matched|e'] eqn:Hm.
  - destruct (decide (files !! filename = Some NoAccess)) as [Hf|Hf].
    + unfold match_and_save, mbind, M_bind, lift.
      rewrite Hm, read_existing_pairs_run, Hf.
      intros [= <- <-]. cbn [fs trace]. unfold writes, opens.
      rewrite !omap_app. cbn. rewrite !app_nil_r.
      split_and!; [done..|].
      intros f [?|[=]%list_elem_of_singleton]%elem_of_app. done.
    + by erewrite match_and_save_run by done.
  - unfold match_and_save, mbind, M_bind, lift. rewrite Hm.
    by intros [= <- <-].
Qed.
(** *** What the trace of a run shows *)

Lemma writes_app t1 t2 : writes (t1 ++ t2) = writes t1 ++ writes t2.
Proof. apply omap_app. Qed.

Lemma opens_app t1 t2 : opens (t1 ++ t2) = opens t1 ++ opens t2.
Proof. apply omap_app. Qed.

Lemma writes_read_trace files filename : writes (read_trace files filename) = [].
Proof. unfold read_trace. by destruct (files !! filename). Qed.

Lemma opens_read_trace files filename :
  opens (read_trace files filename) = [(filename, ModeR)].
Proof. unfold read_trace. by destruct (files !! filename). Qed.

Lemma writes_map_write filename (new_pairs : list str) :
  writes (fmap (λ p, EvWrite filename (p ++ [LF])) new_pairs)
  = fmap (λ p, (filename, p ++ [LF])) new_pairs.
Proof. induction new_pairs as [|p l IH]; [done|]. cbn. by f_equal. Qed.


Lemma writes_write_trace filename new_pairs :
  writes (write_trace filename new_pairs)
  = fmap (λ p, (filename, p ++ [LF])) new_pairs.
Proof.
  destruct new_pairs as [|p l]; [done|]. unfold write_trace.
  change (EvOpen filename ModeA :: ?t) with ([EvOpen filename ModeA] ++ t).
  rewrite !writes_app, writes_map_write. cbn. by rewrite app_nil_r.
Qed.


(** The pairs a run appends: none when it raises, and otherwise the
    matched pairs that are not in the baseline. *)
Lemma match_and_save_outcome cmc bases filename limit files :
  let w' := (match_and_save upper cmc bases filename limit (World files [])).2 in
  ∃ new_pairs,
    writes (trace w') = fmap (λ p, (filename, p ++ [LF])) new_pairs
    ∧ fs w' = files_after files filename new_pairs
    ∧ (new_pairs = [] ∨
       ∃ matched, matched_pairs_of upper cmc bases limit = Ok matched
         ∧ new_pairs = new_pairs_of matched (baseline files filename)).
Proof.
  intros w'. subst w'.
  destruct (matched_pairs_of upper cmc bases limit) as [matched|e] eqn:Hm;
    [destruct (decide (files !! filename = Some NoAccess)) as [Hf|Hf]|].
  - exists []. unfold match_and_save, mbind, M_bind, lift.
    rewrite Hm, read_existing_pairs_run, Hf. by split_and!; [..|left].
  - erewrite match_and_save_run by done. cbn [snd fs trace].
    eexists. split_and!; [|done|right; eauto].
    by rewrite app_nil_l, writes_app, writes_read_trace, writes_write_trace.
  - exists []. unfold match_and_save, mbind, M_bind, lift.
    rewrite Hm. by split_and!; [..|left].
Qed.

Lemma new_pairs_of_sublist matched existing :
  new_pairs_of matched existing `sublist_of` matched.
Proof. apply sublist_filter. Qed.

(** *** Properties of the matcher and writer *)

(** C1: every pair a run appends to the watchlist file is written as
    SYMBOL/USDT followed by a newline, where SYMBOL is the upper-cased
    symbol of a coin of the list, is a member of the exchange's base set
    and is not a member of the stablecoin denylist; the file ends up as
    its old content followed by exactly these writes. *)
Theorem written_pairs_on_exchange_and_not_stable cmc bases filename limit files :
  let w' := (match_and_save upper cmc bases filename limit (World files [])).2 in
  (∀ f data, (f, data) ∈ writes (trace w') →
     f = filename ∧
     ∃ coins coin symbol,
       py_iter cmc = Ok coins ∧ coin ∈ coins
       ∧ py_getitem coin (lit "symbol") = Ok (PyStr symbol)
       ∧ data = (upper symbol ++ USDT_suffix) ++ [LF]
       ∧ upper symbol ∈ bases
       ∧ (upper symbol ∉ stablecoins))
  ∧ (writes (trace w') = [] ∧ fs w' = files
     ∨ fs w' = <[filename := Regular (old_content files filename
                                        ++ concat (snd <$> writes (trace w')))]> files).
Proof.
  intros w'.
  destruct (match_and_save_outcome cmc bases filename limit files)
    as (new_pairs & Hw & Hfs & Hnew).
  fold w' in Hw, Hfs. split.
  - intros f data. rewrite Hw. intros (p & [= -> ->] & Hp)%list_elem_of_fmap.
    split; [done|].
    destruct Hnew as [->|(matched & Hm & ->)]; [by apply elem_of_nil in Hp|].
    apply list_elem_of_filter in Hp as [_ Hp].
    apply matched_pairs_of_spec in Hm as (coins & kept & Hit & Hsub & HF).
    destruct (proj1 (list_elem_of_lookup _ _) Hp) as [i Hi].
    destruct (Forall2_lookup_r _ _ _ _ _ HF Hi) as (coin & Hc & Hem).
    destruct Hem as (symbol & Hget & Hst & Hb & ->).
    exists coins, coin, symbol. split_and!; try done.
    eapply elem_of_sublist; [|done]. by eapply list_elem_of_lookup_2.
  - rewrite Hw, Hfs. destruct new_pairs as [|p l]; [by left|right].
    unfold files_after, appended_data. do 3 f_equal.
    rewrite <-list_fmap_compose. done.
Qed.

(** C3 (as amended): when [limit] is not negative, the matched pairs,
    and with them the writes of one run, number at most [limit]. *)
Theorem matched_pairs_within_nonneg_limit cmc bases filename limit files matched :
  0 ≤ limit →
  matched_pairs_of upper cmc bases limit = Ok matched →
  let w' := (match_and_save upper cmc bases filename limit (World files [])).2 in
  Z.of_nat (length matched) ≤ limit
  ∧ Z.of_nat (length (writes (trace w'))) ≤ limit.
Proof.
  intros Hlim Hm w'.
  assert (Z.of_nat (length matched) ≤ limit) as Hlen.
  { apply matched_pairs_of_inv in Hm as (coins & all & _ & _ & ->).
    by apply slice_to_length_nonneg. }
  split; [done|].
  destruct (match_and_save_outcome cmc bases filename limit files)
    as (new_pairs & Hw & _ & Hnew).
  fold w' in Hw. rewrite Hw, length_fmap.
  destruct Hnew as [->|(matched' & Hm' & ->)]; [simpl; lia|].
  rewrite Hm in Hm'. injection Hm' as <-.
  pose proof (sublist_length _ _ (new_pairs_of_sublist matched (baseline files filename))).
  unfold str, char in *. lia.
Qed.

(** C5: the coins behind the matched pairs, and behind the pairs a run
    appends, form a subsequence of the input coin list, pair number i
    coming from coin number i of that subsequence: pairs keep the order
    of their coins. *)
Theorem pairs_keep_coin_order coins bases filename limit files :
  let w' := (match_and_save upper (PyList coins) bases filename limit
               (World files [])).2 in
  (∀ matched, matched_pairs_of upper (PyList coins) bases limit = Ok matched →
     ∃ kept, kept `sublist_of` coins ∧ Forall2 (emits upper bases) kept matched)
  ∧ ∃ kept new_pairs,
      writes (trace w') = fmap (λ p, (filename, p ++ [LF])) new_pairs
      ∧ kept `sublist_of` coins
      ∧ Forall2 (emits upper bases) kept new_pairs.
Proof.
  intros w'.
  assert (∀ matched, matched_pairs_of upper (PyList coins) bases limit = Ok matched →
     ∃ kept, kept `sublist_of` coins ∧ Forall2 (emits upper bases) kept matched) as Hmatched.
  { intros matched (coins' & kept & [= <-] & ? & ?)%matched_pairs_of_spec. eauto. }
  split; [done|].
  destruct (match_and_save_outcome (PyList coins) bases filename limit files)
    as (new_pairs & Hw & _ & Hnew).
  fold w' in Hw. rewrite Hw.
  destruct Hnew as [->|(matched & Hm & ->)].
  - exists [], []. split_and!; [done|apply sublist_nil_l|constructor].
  - destruct (Hmatched _ Hm) as (kept & Hsub & HF).
    destruct (Forall2_sublist_r _ _ _ _ HF
                (new_pairs_of_sublist matched (baseline files filename)))
      as (kept' & ? & ?).
    exists kept', (new_pairs_of matched (baseline files filename)).
    split_and!; [done| |done]. by etrans.
Qed.




(** With no new pair the file system stays as it was, and the run only
    opens the file for reading. *)
Lemma match_and_save_no_new cmc bases filename limit files t matched :
  matched_pairs_of upper cmc bases limit = Ok matched →
  new_pairs_of matched (baseline files filename) = [] →
  let w' := (match_and_save upper cmc bases filename limit (World files t)).2 in
  fs w' = files
  ∧ writes (trace w') = writes t
  ∧ opens (trace w') = opens t ++ [(filename, ModeR)].
Proof.
  intros Hm Hnew w'. subst w'.
  destruct (decide (files !! filename = Some NoAccess)) as [Hf|Hf].
  - unfold match_and_save, mbind, M_bind, lift.
    rewrite Hm, read_existing_pairs_run, Hf. cbn [snd fs trace].
    rewrite writes_app, opens_app. cbn. by rewrite app_nil_r.
  - erewrite match_and_save_run by done. rewrite Hnew. cbn [snd fs trace].
    rewrite !writes_app, !opens_app, writes_read_trace, opens_read_trace.
    cbn. by rewrite !app_nil_r.
Qed.

(** C10: when no matched pair is new, the run leaves the file system
    as it found it, so that a missing file stays missing, opens no file
    in append mode and writes nothing. *)
Theorem no_new_pairs_no_write cmc bases filename limit files matched :
  matched_pairs_of upper cmc bases limit = Ok matched →
  new_pairs_of matched (baseline files filename) = [] →
  let w' := (match_and_save upper cmc bases filename limit (World files [])).2 in
  fs w' = files
  ∧ (∀ f, (f, ModeA) ∉ opens (trace w'))
  ∧ writes (trace w') = [].
Proof.
  intros Hm Hnew.
  destruct (match_and_save_no_new cmc bases filename limit files [] _ Hm Hnew)
    as (Hfs & Hw & Ho).
  cbn zeta. rewrite Hfs, Hw, Ho. split_and!; [done| |done].
  intros f [[=]|[]%elem_of_nil]%elem_of_cons.
Qed.


(** *** The fetcher *)

(** A response that passes the status check and whose JSON object has
    no 'data' key: the fetcher prints its warning and returns []. *)
Lemma fetch_without_data net api_key limit convert sort sort_dir resp items files t :
  http_get net (listings_request api_key limit convert sort sort_dir) = Ok resp →
  raise_for_status resp = Ok () →
  json_body resp = Some (PyDict items) →
  dict_get items (lit "data") = None →
  fetch_top_coins_from_coinmarketcap net api_key limit convert sort sort_dir
    (World files t)
  = (Ok (PyList []), World files (t ++ [EvPrint data_warning])).
Proof.
  intros Hget Hstatus Hbody Hdata.
  unfold fetch_top_coins_from_coinmarketcap, mbind, M_bind, lift.
  rewrite Hget, Hstatus. unfold response_json. rewrite Hbody.
  cbn [py_contains]. rewrite Hdata.
  rewrite bool_decide_eq_false_2 by by intros [? [=]].
  done.
Qed.

Lemma matched_pairs_of_nil bases limit :
  matched_pairs_of upper (PyList []) bases limit = Ok [].
Proof.
  unfold matched_pairs_of. cbn. unfold mret, result_ret. f_equal.
  unfold slice_to. case_match; apply take_nil.
Qed.

(** C8: when the response passes the status check and its JSON object
    has no 'data' key, the fetcher returns the empty list instead of
    raising; the matcher then matches nothing, and the whole run leaves
    the file system as it was, writing nothing and opening no file in
    append mode. *)
Theorem missing_data_key_is_empty_run net cmc_api_key filename limit cmc_limit
    files resp items :
  http_get net (listings_request cmc_api_key cmc_limit
                  (lit "USD") (lit "market_cap") (lit "desc")) = Ok resp →
  raise_for_status resp = Ok () →
  json_body resp = Some (PyDict items) →
  dict_get items (lit "data") = None →
  fetch_top_coins_from_coinmarketcap net cmc_api_key cmc_limit
    (lit "USD") (lit "market_cap") (lit "desc") (World files [])
  = (Ok (PyList []), World files [EvPrint data_warning])
  ∧ (∀ bases, matched_pairs_of upper (PyList []) bases limit = Ok [])
  ∧ let w' := (save_top_pairs_by_market_cap upper net cmc_api_key filename
                 limit cmc_limit (World files [])).2 in
    fs w' = files
    ∧ writes (trace w') = []
    ∧ ∀ f, (f, ModeA) ∉ opens (trace w').
Proof.
  intros Hget Hstatus Hbody Hdata.
  pose proof (fetch_without_data _ _ _ _ _ _ _ _ files [] Hget Hstatus Hbody Hdata)
    as Hfetch. cbn [app] in Hfetch.
  split_and!; [done|intros; apply matched_pairs_of_nil|].
  unfold save_top_pairs_by_market_cap, mbind, M_bind, lift. rewrite Hfetch.
  destruct (load_markets net) as [markets|e].
  - destruct (match_and_save_no_new (PyList []) (binance_bases_of upper markets)
                filename limit files [EvPrint data_warning] []
                (matched_pairs_of_nil _ _) eq_refl) as (Hfs & Hw & Ho).
    cbn zeta. rewrite Hfs, Hw, Ho. split_and!; [done..|].
    intros f [[=]|[]%elem_of_nil]%elem_of_cons.
  - cbn. split_and!; [done..|]. intros f []%elem_of_nil.
Qed.

(** *** Lines written and read back *)














End Facts.

(** ** Concrete runs *)

(** The property of the written pairs on a run over a stablecoin, a
    listed coin in lower case and a coin the exchange does not list: the
    one write is BTC/USDT. *)
Lemma written_pairs_on_exchange_and_not_stable_witness :
  let cmc := PyList [coin "usdc" 1; coin "btc" 2; coin "XRP" 3] in
  let bases : gset str := {[ lit "USDC"; lit "BTC" ]} in
  let w' := (match_and_save ascii_upper cmc bases top_pairs_txt 120 (World ∅ [])).2 in
  (top_pairs_txt, line "BTC/USDT") ∈ writes (trace w')
  ∧ ∃ coins coin symbol,
      py_iter cmc = Ok coins ∧ coin ∈ coins
      ∧ py_getitem coin (lit "symbol") = Ok (PyStr symbol)
      ∧ line "BTC/USDT" = (ascii_upper symbol ++ USDT_suffix) ++ [LF]
      ∧ ascii_upper symbol ∈ bases
      ∧ (ascii_upper symbol ∉ stablecoins).
Proof.
  cbv zeta.
  assert ((top_pairs_txt, line "BTC/USDT")
          ∈ writes (trace (match_and_save ascii_upper
                (PyList [coin "usdc" 1; coin "btc" 2; coin "XRP" 3])
                {[ lit "USDC"; lit "BTC" ]} top_pairs_txt 120 (World ∅ [])).2)) as Hin
    by by_compute.
  split; [exact Hin|].
  exact (proj2 (proj1 (written_pairs_on_exchange_and_not_stable ascii_upper
                         _ _ _ _ _) _ _ Hin)).
Defined.

(** The stablecoin scenario: USDC is ranked above BTC and the exchange
    lists USDC/USDT, yet only BTC/USDT is matched and written. *)
Example stablecoin_excluded :
  let net := net_of (listing [coin "USDC" 1; coin "BTC" 2])
               ["USDC/USDT"; "BTC/USDT"]%string in
  let run := save_top_pairs_by_market_cap ascii_upper net (lit "key")
               top_pairs_txt 120 300 (World ∅ []) in
  lit "USDC" ∈ binance_bases_of ascii_upper (lit <$> ["USDC/USDT"; "BTC/USDT"]%string)
  ∧ run.1 = Ok ()
  ∧ writes (trace run.2) = [(top_pairs_txt, line "BTC/USDT")]
  ∧ fs run.2 = {[ top_pairs_txt := Regular (line "BTC/USDT") ]}.
Proof. cbv zeta. split_and!; first [by vm_compute|by_compute]. Qed.

(** A symbol is matched whatever its case, and the pair is written in
    upper case. *)
Example lower_case_symbol_matched :
  matched_pairs_of ascii_upper (PyList [coin "btc" 1; coin "Eth" 2; coin "XRP" 3])
    three_bases 120 = Ok [lit "BTC/USDT"; lit "ETH/USDT"].
Proof. by vm_compute. Qed.

(** C2: a coin list in which one symbol appears twice makes a run write
    the same pair twice.  Both copies are matched, neither is in the
    file yet, and line 116 compares the matched pairs with the file only,
    never with each other: after a normal end of the run the watchlist
    file holds BTC/USDT on two lines. *)
Theorem duplicate_symbol_written_twice :
  let coins := [coin "BTC" 1; coin "ETH" 2; coin "BTC" 3] in
  let net := net_of (listing coins) ["BTC/USDT"; "ETH/USDT"]%string in
  let run := save_top_pairs_by_market_cap ascii_upper net (lit "key")
               top_pairs_txt 120 300 (World ∅ []) in
  let content := line "BTC/USDT" ++ line "ETH/USDT" ++ line "BTC/USDT" in
  run.1 = Ok ()
  ∧ fs run.2 = {[ top_pairs_txt := Regular content ]}
  ∧ strip <$> file_lines content
    = [lit "BTC/USDT"; lit "ETH/USDT"; lit "BTC/USDT"]
  ∧ ¬ NoDup (strip <$> file_lines content).
Proof.
  cbv zeta. split_and!; [by vm_compute..|].
  assert (strip <$> file_lines (line "BTC/USDT" ++ line "ETH/USDT" ++ line "BTC/USDT")
          = [lit "BTC/USDT"; lit "ETH/USDT"; lit "BTC/USDT"]) as -> by by vm_compute.
  intros Hnd. apply NoDup_cons in Hnd as [Hnotin _].
  apply Hnotin. right. left.
Qed.

(** C3 without its proviso fails: a negative [limit] makes [l[:limit]]
    drop that many matches from the end, and what is left is longer than
    [limit]. *)
Lemma negative_limit_exceeded :
  ∃ matched,
    matched_pairs_of ascii_upper
      (PyList [coin "BTC" 1; coin "ETH" 2; coin "SOL" 3])
      {[ lit "BTC"; lit "ETH"; lit "SOL" ]} (-1) = Ok matched
    ∧ matched = [lit "BTC/USDT"; lit "ETH/USDT"]
    ∧ ¬ (Z.of_nat (length matched) ≤ -1).
Proof.
  eexists. split_and!; [by vm_compute|done|]. cbn. lia.
Qed.

(** The bound on a run with three matches and the limit 2. *)
Lemma matched_pairs_within_nonneg_limit_witness :
  let cmc := PyList [coin "BTC" 1; coin "ETH" 2; coin "SOL" 3] in
  let bases : gset str := {[ lit "BTC"; lit "ETH"; lit "SOL" ]} in
  let matched := [lit "BTC/USDT"; lit "ETH/USDT"] in
  0 ≤ 2
  ∧ matched_pairs_of ascii_upper cmc bases 2 = Ok matched
  ∧ Z.of_nat (length matched) ≤ 2
  ∧ Z.of_nat (length (writes (trace
        (match_and_save ascii_upper cmc bases top_pairs_txt 2 (World ∅ [])).2))) ≤ 2.
Proof.
  cbv zeta.
  assert (0 ≤ 2) as H0 by lia.
  assert (matched_pairs_of ascii_upper
            (PyList [coin "BTC" 1; coin "ETH" 2; coin "SOL" 3])
            {[ lit "BTC"; lit "ETH"; lit "SOL" ]} 2
          = Ok [lit "BTC/USDT"; lit "ETH/USDT"]) as Hm by (vm_compute; reflexivity).
  split; [exact H0|]. split; [exact Hm|].
  exact (matched_pairs_within_nonneg_limit ascii_upper _ _ top_pairs_txt _ ∅ _ H0 Hm).
Defined.


(** The other way a pair is not recognised on the next run: a symbol
    that starts with white space is written as it is and read back
    stripped. *)
Example second_run_appends_unstripped_pair :
  let cmc := PyList [coin " BTC" 1] in
  let bases : gset str := {[ lit " BTC" ]} in
  let run1 := match_and_save ascii_upper cmc bases top_pairs_txt 120 (World ∅ []) in
  let run2 := match_and_save ascii_upper cmc bases top_pairs_txt 120
                (World (fs run1.2) []) in
  run1.1 = Ok () ∧ run2.1 = Ok ()
  ∧ writes (trace run2.2) = [(top_pairs_txt, line " BTC/USDT")].
Proof. cbv zeta. split_and!; by vm_compute. Qed.


(** The order of the pairs on five coins of which three are matched. *)
Lemma pairs_keep_coin_order_witness :
  let coins := [coin "SOL" 1; coin "USDT" 2; coin "BTC" 3; coin "DOGE" 4; coin "ETH" 5] in
  let matched := [lit "SOL/USDT"; lit "BTC/USDT"; lit "ETH/USDT"] in
  matched_pairs_of ascii_upper (PyList coins) three_bases 120 = Ok matched
  ∧ ∃ kept, kept `sublist_of` coins
      ∧ Forall2 (emits ascii_upper three_bases) kept matched.
Proof.
  cbv zeta.
  assert (matched_pairs_of ascii_upper
            (PyList [coin "SOL" 1; coin "USDT" 2; coin "BTC" 3; coin "DOGE" 4;
                     coin "ETH" 5]) three_bases 120
          = Ok [lit "SOL/USDT"; lit "BTC/USDT"; lit "ETH/USDT"]) as Hm
    by (vm_compute; reflexivity).
  split; [exact Hm|].
  exact (proj1 (pairs_keep_coin_order ascii_upper _ _ top_pairs_txt _ ∅) _ Hm).
Defined.




(** A run on a response with status 200 and a body that holds a
    'status' object only. *)
Lemma missing_data_key_is_empty_run_witness :
  let net := net_of no_data_response ["BTC/USDT"; "ETH/USDT"]%string in
  http_get net (listings_request (lit "key") 300
                  (lit "USD") (lit "market_cap") (lit "desc")) = Ok no_data_response
  ∧ raise_for_status no_data_response = Ok ()
  ∧ fetch_top_coins_from_coinmarketcap net (lit "key") 300
      (lit "USD") (lit "market_cap") (lit "desc") (World one_line_file [])
    = (Ok (PyList []), World one_line_file [EvPrint data_warning])
  ∧ (∀ bases, matched_pairs_of ascii_upper (PyList []) bases 120 = Ok [])
  ∧ fs (save_top_pairs_by_market_cap ascii_upper net (lit "key") top_pairs_txt
          120 300 (World one_line_file [])).2 = one_line_file
  ∧ writes (trace (save_top_pairs_by_market_cap ascii_upper net (lit "key")
          top_pairs_txt 120 300 (World one_line_file [])).2) = []
  ∧ ∀ f, (f, ModeA) ∉ opens (trace (save_top_pairs_by_market_cap ascii_upper net
          (lit "key") top_pairs_txt 120 300 (World one_line_file [])).2).
Proof.
  cbv zeta.
  assert (raise_for_status no_data_response = Ok ()) as Hstatus by reflexivity.
  split; [reflexivity|]. split; [exact Hstatus|].
  exact (missing_data_key_is_empty_run ascii_upper
           (net_of no_data_response ["BTC/USDT"; "ETH/USDT"]%string)
           (lit "key") top_pairs_txt 120 300 one_line_file no_data_response _
           eq_refl Hstatus eq_refl eq_refl).
Defined.

(** A failing status is raised before the body is looked at, and a coin
    without a symbol stops the run before the file is touched. *)
Example error_paths :
  let denied := {| status_code := 401; json_body := json_body no_data_response |} in
  (fetch_top_coins_from_coinmarketcap (net_of denied []) (lit "xxxx") 300
     (lit "USD") (lit "market_cap") (lit "desc") (World ∅ [])).1 = Raise HTTPError
  ∧ match_and_save ascii_upper (PyList [coin "BTC" 1; PyDict []]) three_bases
      top_pairs_txt 120 (World ∅ []) = (Raise KeyError, World ∅ []).
Proof. cbv zeta. split; by vm_compute. Qed.



(** A run whose only match is in the file already. *)
Lemma no_new_pairs_no_write_witness :
  let cmc := PyList [coin "USDC" 1; coin "BTC" 2] in
  matched_pairs_of ascii_upper cmc {[ lit "USDC"; lit "BTC" ]} 120 = Ok [lit "BTC/USDT"]
  ∧ new_pairs_of [lit "BTC/USDT"] (baseline one_line_file top_pairs_txt) = []
  ∧ fs (match_and_save ascii_upper cmc {[ lit "USDC"; lit "BTC" ]} top_pairs_txt 120
          (World one_line_file [])).2 = one_line_file
  ∧ (∀ f, (f, ModeA) ∉ opens (trace
          (match_and_save ascii_upper cmc {[ lit "USDC"; lit "BTC" ]} top_pairs_txt 120
             (World one_line_file [])).2))
  ∧ writes (trace
          (match_and_save ascii_upper cmc {[ lit "USDC"; lit "BTC" ]} top_pairs_txt 120
             (World one_line_file [])).2) = [].
Proof.
  cbv zeta.
  assert (matched_pairs_of ascii_upper (PyList [coin "USDC" 1; coin "BTC" 2])
            {[ lit "USDC"; lit "BTC" ]} 120 = Ok [lit "BTC/USDT"]) as Hm
    by (vm_compute; reflexivity).
  assert (new_pairs_of [lit "BTC/USDT"] (baseline one_line_file top_pairs_txt) = [])
    as Hnew by (vm_compute; reflexivity).
  split; [exact Hm|]. split; [exact Hnew|].
  exact (no_new_pairs_no_write ascii_upper _ _ top_pairs_txt _ _ _ Hm Hnew).
Defined.


(** ** The rest of the script: fetching, the exchange's markets, failures *)

Section Script.
Variable upper : str → str.

(** *** The string tests of lines 81-83 *)

Lemma endswith_spec s suffix :
  endswith s suffix = true ↔ ∃ front, s = front ++ suffix.
Proof.
  unfold endswith. rewrite bool_decide_eq_true. split.
  - intros Hdrop. exists (take (length s - length suffix) s).
    transitivity (take (length s - length suffix) s
                  ++ drop (length s - length suffix) s);
      [by rewrite take_drop|by rewrite Hdrop].
  - intros [front ->]. rewrite length_app.
    replace (length front + length suffix - length suffix)%nat
      with (length front) by lia.
    by rewrite drop_app_length.
Qed.

Lemma split_head_no_slash base rest :
  SLASH ∉ base → split_head (base ++ SLASH :: rest) = base.
Proof.
  induction base as [|c base IH]; intros Hno; cbn.
  - done.
  - apply not_elem_of_cons in Hno as [Hc Hno].
    rewrite (proj2 (N.eqb_neq c SLASH)) by done. by rewrite IH.
Qed.

Lemma binance_bases_of_elem markets symbol_upper :
  symbol_upper ∈ binance_bases_of upper markets ↔
  ∃ m front, m ∈ markets ∧ m = front ++ USDT_suffix
    ∧ symbol_upper = upper (split_head m).
Proof.
  unfold binance_bases_of.
  rewrite elem_of_list_to_set, list_elem_of_fmap. split.
  - intros (m & -> & [Hend Hm]%list_elem_of_filter).
    apply endswith_spec in Hend as [front ->]. by exists (front ++ USDT_suffix), front.
  - intros (m & front & Hm & -> & ->). exists (front ++ USDT_suffix).
    split; [done|]. apply list_elem_of_filter. split; [|done].
    apply endswith_spec. by exists front.
Qed.


(** X2: a market BASE/USDT whose BASE holds no slash puts the
    upper-cased BASE into the base set, and a market list without any
    name ending in /USDT gives the empty base set. *)
Theorem usdt_markets_give_bases markets :
  (∀ base, SLASH ∉ base → base ++ USDT_suffix ∈ markets →
     upper base ∈ binance_bases_of upper markets)
  ∧ ((∀ m, m ∈ markets → endswith m USDT_suffix = false) →
     binance_bases_of upper markets = ∅).
Proof.
  split.
  - intros base Hno Hm. apply binance_bases_of_elem.
    exists (base ++ USDT_suffix), base. split_and!; [done..|].
    f_equal. symmetry. by apply (split_head_no_slash base (lit "USDT")).
  - intros Hnone. apply set_eq. intros s. split; [|by intros ?%not_elem_of_empty].
    intros (m & front & Hm & -> & _)%binance_bases_of_elem.
    specialize (Hnone _ Hm).
    assert (endswith (front ++ USDT_suffix) USDT_suffix = true) as Ht
      by (apply endswith_spec; by exists front).
    congruence.
Qed.

(** *** The loop of lines 93-102 as a comprehension *)

Lemma match_loop_closed_form bases coins symbols :
  Forall2 has_symbol coins symbols →
  match_loop upper bases coins []
  = Ok (fmap (λ u, u ++ USDT_suffix)
          (filter (λ u, (u ∉ stablecoins) ∧ u ∈ bases) (upper <$> symbols))).
Proof.
  induction 1 as [|coin s coins symbols Hs _ IH]; [done|].
  cbn [match_loop]. unfold has_symbol in Hs. rewrite Hs.
  unfold mbind, result_bind. cbn [py_upper]. rewrite fmap_cons.
  case_decide as Hst.
  { rewrite filter_cons_False by tauto. exact IH. }
  case_decide as Hb.
  - rewrite filter_cons_True by tauto.
    rewrite match_loop_acc, IH. done.
  - rewrite filter_cons_False by tauto. exact IH.
Qed.

Lemma match_loop_well_formed bases coins acc all :
  match_loop upper bases coins acc = Ok all → Forall well_formed_coin coins.
Proof.
  revert acc. induction coins as [|coin rest IH]; intros acc; [constructor|].
  cbn [match_loop].
  destruct (py_getitem coin (lit "symbol")) as [v|e] eqn:Hget; cbn; [|done].
  destruct v as [| | |s| |]; cbn; try done.
  intros Hrest. constructor; [by exists s|].
  repeat case_decide; eauto.
Qed.

Lemma well_formed_symbols coins :
  Forall well_formed_coin coins → ∃ symbols, Forall2 has_symbol coins symbols.
Proof.
  induction 1 as [|coin coins [s Hs] _ [symbols IH]].
  - exists []. constructor.
  - exists (s :: symbols). by constructor.
Qed.

(** X3: the loop is the comprehension it spells out.  When every coin
    has a string symbol, the matched pairs are the upper-cased symbols
    that are not stablecoins and are in the base set, in list order, each
    followed by /USDT, cut by [[:limit]]. *)
Theorem matched_pairs_closed_form coins symbols bases limit :
  Forall2 has_symbol coins symbols →
  matched_pairs_of upper (PyList coins) bases limit
  = Ok (slice_to
          (fmap (λ u, u ++ USDT_suffix)
             (filter (λ u, (u ∉ stablecoins) ∧ u ∈ bases) (upper <$> symbols)))
          limit).
Proof.
  intros Hs. unfold matched_pairs_of. cbn.
  by rewrite (match_loop_closed_form _ _ _ Hs).
Qed.

(** X4: matching succeeds exactly when every coin of the list is a dict
    with a string under 'symbol'.  One coin that is not, wherever it
    stands in the list, makes the run raise before the watchlist file is
    opened: the world is left as it was. *)
Theorem matching_needs_every_symbol coins bases filename limit files t :
  ((∃ matched, matched_pairs_of upper (PyList coins) bases limit = Ok matched)
   ↔ Forall well_formed_coin coins)
  ∧ (¬ Forall well_formed_coin coins →
     ∃ e, match_and_save upper (PyList coins) bases filename limit (World files t)
          = (Raise e, World files t)).
Proof.
  assert ((∃ matched, matched_pairs_of upper (PyList coins) bases limit = Ok matched)
          ↔ Forall well_formed_coin coins) as Hiff.
  { split.
    - intros [matched (coins' & all & [= <-] & Hloop & _)%matched_pairs_of_inv].
      by eapply match_loop_well_formed.
    - intros [symbols Hs]%well_formed_symbols. eexists.
      unfold matched_pairs_of. cbn. by rewrite (match_loop_closed_form _ _ _ Hs). }
  split; [done|]. intros Hbad.
  unfold match_and_save, mbind, M_bind, lift.
  destruct (matched_pairs_of upper (PyList coins) bases limit) as [matched|e] eqn:Hm.
  - destruct Hbad. apply Hiff. eauto.
  - by exists e.
Qed.

Lemma slice_to_all {A} (l : list A) (stop : Z) :
  Z.of_nat (length l) ≤ stop → slice_to l stop = l.
Proof.
  intros Hlen. rewrite slice_to_nonneg by lia. apply take_ge. lia.
Qed.

(** X5: no eligible coin is passed over.  When the limit is at least
    the number of coins, a coin whose upper-cased symbol is in the base
    set and is not a stablecoin has its pair among the matched pairs. *)
Theorem eligible_coin_is_matched coins bases limit matched coin symbol :
  matched_pairs_of upper (PyList coins) bases limit = Ok matched →
  Z.of_nat (length coins) ≤ limit →
  coin ∈ coins →
  has_symbol coin symbol →
  upper symbol ∈ bases →
  upper symbol ∉ stablecoins →
  upper symbol ++ USDT_suffix ∈ matched.
Proof.
  intros Hm Hlim Hcoin Hsym Hb Hst.
  pose proof Hm as (coins' & all & [= <-] & Hloop & ->)%matched_pairs_of_inv.
  destruct (well_formed_symbols coins (match_loop_well_formed _ _ _ _ Hloop))
    as [symbols Hs].
  rewrite (match_loop_closed_form _ _ _ Hs) in Hloop. injection Hloop as <-.
  assert (symbol ∈ symbols) as Hin.
  { clear -Hs Hcoin Hsym. induction Hs as [|c s cs ss Hc _ IH].
    - by apply elem_of_nil in Hcoin.
    - apply elem_of_cons in Hcoin as [<-|Hcoin].
      + unfold has_symbol in *. rewrite Hsym in Hc. injection Hc as <-. by left.
      + right. by apply IH. }
  rewrite slice_to_all.
  - apply list_elem_of_fmap. exists (upper symbol). split; [done|].
    apply list_elem_of_filter. split; [done|]. apply list_elem_of_fmap. eauto.
  - rewrite length_fmap.
    pose proof (length_filter (λ u, (u ∉ stablecoins) ∧ u ∈ bases) (upper <$> symbols)).
    rewrite length_fmap in *. pose proof (Forall2_length _ _ _ Hs).
    unfold str, char in *. lia.
Qed.

(** X6: matching looks at the symbols through [upper] only.  Two coin
    lists whose symbols agree after upper-casing, position by position,
    give the same matched pairs. *)
Theorem matching_ignores_case coins1 coins2 symbols1 symbols2 bases limit :
  Forall2 has_symbol coins1 symbols1 →
  Forall2 has_symbol coins2 symbols2 →
  upper <$> symbols1 = upper <$> symbols2 →
  matched_pairs_of upper (PyList coins1) bases limit
  = matched_pairs_of upper (PyList coins2) bases limit.
Proof.
  intros H1 H2 Heq. unfold matched_pairs_of. cbn.
  by rewrite (match_loop_closed_form _ _ _ H1), (match_loop_closed_form _ _ _ H2), Heq.
Qed.

(** *** The ways a run can go *)

Lemma fetch_cases net api_key limit convert sort sort_dir files t :
  ∃ r evs,
    fetch_top_coins_from_coinmarketcap net api_key limit convert sort sort_dir
      (World files t) = (r, World files (t ++ evs))
    ∧ (evs = [] ∨ r = Ok (PyList []) ∧ evs = [EvPrint data_warning]).
Proof.
  unfold fetch_top_coins_from_coinmarketcap, mbind, M_bind, lift, print, emit.
  destruct (http_get net _) as [resp|e]; [|exists (Raise e), []; by rewrite app_nil_r; auto].
  destruct (raise_for_status resp) as [[]|e];
    [|exists (Raise e), []; by rewrite app_nil_r; auto].
  destruct (response_json resp) as [data|e];
    [|exists (Raise e), []; by rewrite app_nil_r; auto].
  destruct (py_contains data (lit "data")) as [[]|e]; cbn.
  - exists (py_getitem data (lit "data")), []. rewrite app_nil_r. auto.
  - exists (Ok (PyList [])), [EvPrint data_warning]. auto.
  - exists (Raise e), []. rewrite app_nil_r. auto.
Qed.

Lemma match_and_save_cases cmc bases filename limit files t :
  (∃ e, matched_pairs_of upper cmc bases limit = Raise e
     ∧ match_and_save upper cmc bases filename limit (World files t)
       = (Raise e, World files t))
  ∨ (∃ matched, matched_pairs_of upper cmc bases limit = Ok matched
       ∧ files !! filename = Some NoAccess
       ∧ match_and_save upper cmc bases filename limit (World files t)
         = (Raise PermissionError, World files (t ++ [EvOpen filename ModeR])))
  ∨ (∃ matched, matched_pairs_of upper cmc bases limit = Ok matched
       ∧ files !! filename ≠ Some NoAccess
       ∧ match_and_save upper cmc bases filename limit (World files t)
         = (Ok (),
            World (files_after files filename
                     (new_pairs_of matched (baseline files filename)))
                  (t ++ read_trace files filename
                     ++ write_trace filename
                          (new_pairs_of matched (baseline files filename))))).
Proof.
  destruct (matched_pairs_of upper cmc bases limit) as [matched|e] eqn:Hm.
  - destruct (decide (files !! filename = Some NoAccess)) as [Hf|Hf].
    + right; left. exists matched. split_and!; [done..|].
      unfold match_and_save, mbind, M_bind, lift.
      by rewrite Hm, read_existing_pairs_run, Hf.
    + right; right. exists matched. split_and!; [done..|].
      by apply match_and_save_run.
  - left. exists e. split; [done|].
    unfold match_and_save, mbind, M_bind, lift. by rewrite Hm.
Qed.

(** The whole script: it stops before the matcher, or is the matcher
    run on what was fetched and on the exchange's base set. *)
Lemma script_cases net cmc_api_key filename limit cmc_limit files :
  ∃ pre, (pre = [] ∨ pre = [EvPrint data_warning])
    ∧ ((∃ e, save_top_pairs_by_market_cap upper net cmc_api_key filename limit
               cmc_limit (World files []) = (Raise e, World files pre))
       ∨ (∃ cmc markets,
            load_markets net = Ok markets
            ∧ save_top_pairs_by_market_cap upper net cmc_api_key filename limit
                cmc_limit (World files [])
              = match_and_save upper cmc (binance_bases_of upper markets)
                  filename limit (World files pre))).
Proof.
  destruct (fetch_cases net cmc_api_key cmc_limit (lit "USD") (lit "market_cap")
              (lit "desc") files []) as (r & pre & Hfetch & Hpre).
  cbn [app] in Hfetch. exists pre. split; [tauto|].
  unfold save_top_pairs_by_market_cap, mbind, M_bind, lift. rewrite Hfetch.
  destruct r as [cmc|e]; [|left; by exists e].
  destruct (load_markets net) as [markets|e]; [|left; by exists e].
  right. by exists cmc, markets.
Qed.

(** What every run of the script leaves, whichever way it went. *)
Lemma script_outcome net cmc_api_key filename limit cmc_limit files :
  ∃ r pre evs new_pairs,
    save_top_pairs_by_market_cap upper net cmc_api_key filename limit cmc_limit
      (World files [])
    = (r, World (files_after files filename new_pairs) (pre ++ evs))
    ∧ (pre = [] ∨ pre = [EvPrint data_warning])
    ∧ ((∃ e, r = Raise e) ∧ new_pairs = []
         ∧ (evs = [] ∨ evs = [EvOpen filename ModeR])
       ∨ r = Ok () ∧ files !! filename ≠ Some NoAccess
         ∧ evs = read_trace files filename ++ write_trace filename new_pairs
         ∧ ∃ cmc bases matched,
             matched_pairs_of upper cmc bases limit = Ok matched
             ∧ new_pairs = new_pairs_of matched (baseline files filename)).
Proof.
  destruct (script_cases net cmc_api_key filename limit cmc_limit files)
    as (pre & Hpre & [[e Hrun]|(cmc & markets & _ & Hrun)]).
  - exists (Raise e), pre, [], []. rewrite app_nil_r.
    split_and!; [done..|]. left. eauto.
  - rewrite Hrun.
    destruct (match_and_save_cases cmc (binance_bases_of upper markets)
                filename limit files pre)
      as [(e & _ & ->)|[(matched & _ & _ & ->)|(matched & Hm & Hf & ->)]].
    + exists (Raise e), pre, [], []. rewrite app_nil_r.
      split_and!; [done..|]. left. eauto.
    + exists (Raise PermissionError), pre, [EvOpen filename ModeR], [].
      split_and!; [done..|]. left. eauto.
    + eexists (Ok ()), pre, _, _. split_and!; [done..|]. right.
      split_and!; [done..|]. by eexists cmc, _, matched.
Qed.

(** *** What a run of the script does and never does *)

Lemma touched_app t1 t2 : touched (t1 ++ t2) = touched t1 ++ touched t2.
Proof. apply omap_app. Qed.

Lemma printed_app t1 t2 : printed (t1 ++ t2) = printed t1 ++ printed t2.
Proof. apply omap_app. Qed.

Lemma touched_read_trace files filename :
  touched (read_trace files filename) = [filename].
Proof. unfold read_trace. by destruct (files !! filename). Qed.

Lemma touched_write_trace filename new_pairs f :
  f ∈ touched (write_trace filename new_pairs) → f = filename.
Proof.
  destruct new_pairs as [|p l]; [by intros ?%elem_of_nil|].
  unfold write_trace.
  change (EvOpen filename ModeA :: ?t) with ([EvOpen filename ModeA] ++ t).
  rewrite !touched_app. cbn [touched omap]. rewrite app_nil_r.
  intros [Hf|Hf]%elem_of_app; [by apply list_elem_of_singleton in Hf|].
  revert Hf. generalize (p :: l). intros ps. induction ps as [|q ps IH]; cbn.
  - by intros ?%elem_of_nil.
  - intros [->|?]%elem_of_cons; [done|by apply IH].
Qed.

Lemma printed_write_trace filename new_pairs :
  printed (write_trace filename new_pairs)
  = [match new_pairs with
     | [] => nothing_message
     | _ :: _ => added_message (length new_pairs) filename
     end].
Proof.
  destruct new_pairs as [|p l]; [done|]. unfold write_trace.
  change (EvOpen filename ModeA :: ?t) with ([EvOpen filename ModeA] ++ t).
  rewrite !printed_app. cbn [printed omap app].
  assert (∀ ps : list str,
            omap (λ e, match e with EvPrint msg => Some msg | _ => None end)
              (fmap (λ q, EvWrite filename (q ++ [LF])) ps) = []) as ->; [|done].
  induction ps as [|q ps IH]; [done|]. by cbn.
Qed.

(** X7: the fetcher leaves the file system alone.  Whatever the network
    answers, it changes no file and opens none, and the one thing it may
    print is the warning about the missing 'data', upon which it returns
    the empty list. *)
Theorem fetch_keeps_files net api_key limit convert sort sort_dir files t :
  ∃ r evs,
    fetch_top_coins_from_coinmarketcap net api_key limit convert sort sort_dir
      (World files t) = (r, World files (t ++ evs))
    ∧ touched evs = []
    ∧ (evs = [] ∨ r = Ok (PyList []) ∧ evs = [EvPrint data_warning]).
Proof.
  destruct (fetch_cases net api_key limit convert sort sort_dir files t)
    as (r & evs & Hrun & Hevs).
  exists r, evs. split_and!; [done| |done].
  by destruct Hevs as [->|[_ ->]].
Qed.


(** X9: a run touches the one file it is given.  Every open and every
    write names [filename], and every other path of the file system is
    after the run what it was before. *)
Theorem run_touches_only_its_file net cmc_api_key filename limit cmc_limit files :
  let w' := (save_top_pairs_by_market_cap upper net cmc_api_key filename limit
               cmc_limit (World files [])).2 in
  (∀ f, f ∈ touched (trace w') → f = filename)
  ∧ (∀ f, f ≠ filename → fs w' !! f = files !! f).
Proof.
  destruct (script_outcome net cmc_api_key filename limit cmc_limit files)
    as (r & pre & evs & new_pairs & -> & Hpre & Hcases).
  cbn [snd fs trace]. split.
  - intros f. rewrite touched_app.
    assert (touched pre = []) as -> by by destruct Hpre as [->| ->].
    cbn [app].
    destruct Hcases as [(_ & _ & [->| ->])|(_ & _ & -> & _)].
    + by intros ?%elem_of_nil.
    + by intros ?%list_elem_of_singleton.
    + rewrite touched_app, touched_read_trace.
      intros [?%list_elem_of_singleton|?%touched_write_trace]%elem_of_app; done.
  - intros f Hne. unfold files_after.
    destruct new_pairs; [done|]. by rewrite lookup_insert_ne.
Qed.



(** X12: the report matches the writes.  The last message of a run that
    ends normally is "No new pairs to add." when it wrote nothing, and
    otherwise "Added n new pairs to [filename]" with n the number of its
    writes. *)
Theorem report_counts_the_writes net cmc_api_key filename limit cmc_limit files w' :
  save_top_pairs_by_market_cap upper net cmc_api_key filename limit cmc_limit
    (World files []) = (Ok (), w') →
  last (printed (trace w'))
  = Some (match writes (trace w') with
          | [] => nothing_message
          | _ :: _ => added_message (length (writes (trace w'))) filename
          end).
Proof.
  destruct (script_outcome net cmc_api_key filename limit cmc_limit files)
    as (r & pre & evs & new_pairs & -> & Hpre & Hcases).
  intros [= -> <-]. cbn [trace].
  destruct Hcases as [([e [=]] & _)|(_ & Hf & -> & _)].
  rewrite !printed_app, !writes_app, printed_write_trace, writes_read_trace,
    writes_write_trace.
  assert (writes pre = []) as -> by by destruct Hpre as [->| ->].
  rewrite app_assoc, last_snoc. cbn [app]. f_equal.
  destruct new_pairs as [|p l]; [done|]. rewrite fmap_cons.
  cbn [length]. by rewrite length_fmap.
Qed.

(** X13: only a missing file is forgiven.  When the watchlist path
    cannot be opened, the permission error of line 110 is not caught by
    the handler of line 112: it ends the run, after the one attempt to
    open the file for reading. *)
Theorem permission_error_reaches_caller cmc bases filename limit files t matched :
  matched_pairs_of upper cmc bases limit = Ok matched →
  files !! filename = Some NoAccess →
  match_and_save upper cmc bases filename limit (World files t)
  = (Raise PermissionError, World files (t ++ [EvOpen filename ModeR])).
Proof.
  intros Hm Hf.
  destruct (match_and_save_cases cmc bases filename limit files t)
    as [(e & Hm' & _)|[(matched' & _ & _ & ->)|(matched' & _ & Hf' & _)]];
    [congruence|done|done].
Qed.

(** X14: a response with a status from 400 to 599 ends the script with
    an HTTP error before anything else happens: nothing is printed, no
    file is opened, the exchange's answer plays no part. *)
Theorem error_status_ends_script net cmc_api_key filename limit cmc_limit files resp :
  http_get net (listings_request cmc_api_key cmc_limit
                  (lit "USD") (lit "market_cap") (lit "desc")) = Ok resp →
  400 ≤ status_code resp < 600 →
  save_top_pairs_by_market_cap upper net cmc_api_key filename limit cmc_limit
    (World files []) = (Raise HTTPError, World files []).
Proof.
  intros Hget [Hlo Hhi].
  unfold save_top_pairs_by_market_cap, fetch_top_coins_from_coinmarketcap,
    mbind, M_bind, lift.
  rewrite Hget. unfold raise_for_status.
  by rewrite (proj2 (Z.leb_le _ _) Hlo), (proj2 (Z.ltb_lt _ _) Hhi).
Qed.

(** X15: when loading the exchange's markets fails, its exception ends
    the script; the watchlist file has not been opened and no file has
    changed. *)
Theorem exchange_failure_ends_script net cmc_api_key filename limit cmc_limit
    files cmc w0 e :
  fetch_top_coins_from_coinmarketcap net cmc_api_key cmc_limit
    (lit "USD") (lit "market_cap") (lit "desc") (World files []) = (Ok cmc, w0) →
  load_markets net = Raise e →
  save_top_pairs_by_market_cap upper net cmc_api_key filename limit cmc_limit
    (World files []) = (Raise e, w0)
  ∧ fs w0 = files
  ∧ touched (trace w0) = [].
Proof.
  intros Hfetch Hload.
  unfold save_top_pairs_by_market_cap, mbind, M_bind, lift.
  rewrite Hfetch, Hload. split; [done|].
  destruct (fetch_cases net cmc_api_key cmc_limit (lit "USD") (lit "market_cap")
              (lit "desc") files []) as (r & evs & Hfetch' & Hevs).
  rewrite Hfetch in Hfetch'. injection Hfetch' as _ ->. cbn [fs trace app].
  split; [done|]. by destruct Hevs as [->|[_ ->]].
Qed.



Lemma script_writes_within_limit net cmc_api_key filename limit cmc_limit files :
  0 ≤ limit →
  Z.of_nat (length (writes (trace
     (save_top_pairs_by_market_cap upper net cmc_api_key filename limit cmc_limit
        (World files [])).2))) ≤ limit.
Proof.
  intros Hlim.
  destruct (script_outcome net cmc_api_key filename limit cmc_limit files)
    as (r & pre & evs & new_pairs & -> & Hpre & Hcases).
  cbn [snd trace]. rewrite writes_app.
  assert (writes pre = []) as -> by by destruct Hpre as [->| ->].
  cbn [app].
  destruct Hcases as [(_ & -> & [->| ->])
                     |(_ & _ & -> & cmc & bases & matched & Hm & ->)];
    [cbn; lia..|].
  rewrite writes_app, writes_read_trace, writes_write_trace.
  cbn [app]. rewrite length_fmap.
  pose proof (sublist_length _ _
                (new_pairs_of_sublist matched (baseline files filename))).
  apply matched_pairs_of_inv in Hm as (coins & all & _ & _ & ->).
  pose proof (slice_to_length_nonneg all limit Hlim).
  unfold str, char in *. lia.
Qed.

(** X17: the script as it is started from the command line.  Whatever
    the environment holds and the network answers, one run appends at
    most 120 lines, and it writes to top_pairs.txt only. *)
Theorem main_appends_at_most_120 net environ files :
  let w' := (main upper net environ (World files [])).2 in
  Z.of_nat (length (writes (trace w'))) ≤ 120
  ∧ ∀ f data, (f, data) ∈ writes (trace w') → f = lit "top_pairs.txt".
Proof.
  unfold main. split; [by apply script_writes_within_limit|].
  intros f data.
  destruct (script_outcome net (default (lit "xxxx") (environ !! lit "CMC_API_KEY"))
              (lit "top_pairs.txt") 120 300 files)
    as (r & pre & evs & new_pairs & -> & Hpre & Hcases).
  cbn [snd trace]. rewrite writes_app.
  assert (writes pre = []) as -> by by destruct Hpre as [->| ->].
  cbn [app].
  destruct Hcases as [(_ & -> & [->| ->])|(_ & _ & -> & _)];
    [by intros ?%elem_of_nil..|].
  rewrite writes_app, writes_read_trace, writes_write_trace. cbn [app].
  by intros (p & [= -> _] & _)%list_elem_of_fmap.
Qed.
End Script.

(** ** Concrete runs of the whole script *)

(** The comprehension on a stablecoin, a listed coin and an unlisted
    one. *)
Lemma matched_pairs_closed_form_witness :
  let coins := [coin "usdc" 1; coin "btc" 2; coin "XRP" 3] in
  let symbols := [lit "usdc"; lit "btc"; lit "XRP"] in
  Forall2 has_symbol coins symbols
  ∧ matched_pairs_of ascii_upper (PyList coins) three_bases 120
    = Ok (slice_to
            (fmap (λ u, u ++ USDT_suffix)
               (filter (λ u, (u ∉ stablecoins) ∧ u ∈ three_bases)
                  (ascii_upper <$> symbols)))
            120)
  ∧ matched_pairs_of ascii_upper (PyList coins) three_bases 120
    = Ok [lit "BTC/USDT"].
Proof.
  cbv zeta.
  assert (Forall2 has_symbol [coin "usdc" 1; coin "btc" 2; coin "XRP" 3]
            [lit "usdc"; lit "btc"; lit "XRP"]) as Hs
    by (repeat constructor).
  split; [exact Hs|]. split; [|by vm_compute].
  exact (matched_pairs_closed_form ascii_upper _ _ three_bases 120 Hs).
Defined.

(** Three coins under the limit 120: the pair of ETH is matched. *)
Lemma eligible_coin_is_matched_witness :
  let coins := [coin "BTC" 1; coin "ETH" 2; coin "SOL" 3] in
  let matched := [lit "BTC/USDT"; lit "ETH/USDT"; lit "SOL/USDT"] in
  matched_pairs_of ascii_upper (PyList coins) three_bases 120 = Ok matched
  ∧ Z.of_nat (length coins) ≤ 120
  ∧ ascii_upper (lit "ETH") ++ USDT_suffix ∈ matched.
Proof.
  cbv zeta.
  assert (matched_pairs_of ascii_upper
            (PyList [coin "BTC" 1; coin "ETH" 2; coin "SOL" 3]) three_bases 120
          = Ok [lit "BTC/USDT"; lit "ETH/USDT"; lit "SOL/USDT"]) as Hm
    by (vm_compute; reflexivity).
  assert (Z.of_nat (length [coin "BTC" 1; coin "ETH" 2; coin "SOL" 3]) ≤ 120)
    as Hlim by (cbn; lia).
  assert (coin "ETH" 2 ∈ [coin "BTC" 1; coin "ETH" 2; coin "SOL" 3]) as Hin
    by (apply elem_of_cons; right; apply elem_of_cons; left; reflexivity).
  assert (has_symbol (coin "ETH" 2) (lit "ETH")) as Hsym by reflexivity.
  assert (ascii_upper (lit "ETH") ∈ three_bases) as Hb by by_compute.
  assert (ascii_upper (lit "ETH") ∉ stablecoins) as Hst by by_compute.
  split; [exact Hm|]. split; [exact Hlim|].
  exact (eligible_coin_is_matched ascii_upper _ _ _ _ _ _ Hm Hlim Hin Hsym Hb Hst).
Defined.

(** The symbols btc, Eth and BTC, ETH give the same pairs. *)
Lemma matching_ignores_case_witness :
  let coins1 := [coin "btc" 1; coin "Eth" 2] in
  let coins2 := [coin "BTC" 7; coin "ETH" 9] in
  ascii_upper <$> [lit "btc"; lit "Eth"] = ascii_upper <$> [lit "BTC"; lit "ETH"]
  ∧ matched_pairs_of ascii_upper (PyList coins1) three_bases 120
    = matched_pairs_of ascii_upper (PyList coins2) three_bases 120
  ∧ matched_pairs_of ascii_upper (PyList coins2) three_bases 120
    = Ok [lit "BTC/USDT"; lit "ETH/USDT"].
Proof.
  cbv zeta.
  assert (Forall2 has_symbol [coin "btc" 1; coin "Eth" 2] [lit "btc"; lit "Eth"])
    as H1 by (repeat constructor).
  assert (Forall2 has_symbol [coin "BTC" 7; coin "ETH" 9] [lit "BTC"; lit "ETH"])
    as H2 by (repeat constructor).
  assert (ascii_upper <$> [lit "btc"; lit "Eth"]
          = ascii_upper <$> [lit "BTC"; lit "ETH"]) as Heq by (vm_compute; reflexivity).
  split; [exact Heq|]. split; [|by vm_compute].
  exact (matching_ignores_case ascii_upper _ _ _ _ three_bases 120 H1 H2 Heq).
Defined.


(** A run that appends ETH/USDT and SOL/USDT and reports two pairs. *)
Lemma report_counts_the_writes_witness :
  let net := net_of (listing [coin "BTC" 1; coin "ETH" 2; coin "SOL" 3])
               ["BTC/USDT"; "ETH/USDT"; "SOL/USDT"]%string in
  let run := save_top_pairs_by_market_cap ascii_upper net (lit "key")
               top_pairs_txt 120 300 (World one_line_file []) in
  run = (Ok (), run.2)
  ∧ length (writes (trace run.2)) = 2%nat
  ∧ last (printed (trace run.2))
    = Some (match writes (trace run.2) with
            | [] => nothing_message
            | _ :: _ => added_message (length (writes (trace run.2))) top_pairs_txt
            end).
Proof.
  cbv zeta.
  assert (save_top_pairs_by_market_cap ascii_upper
            (net_of (listing [coin "BTC" 1; coin "ETH" 2; coin "SOL" 3])
               ["BTC/USDT"; "ETH/USDT"; "SOL/USDT"]%string)
            (lit "key") top_pairs_txt 120 300 (World one_line_file [])
          = (Ok (),
             (save_top_pairs_by_market_cap ascii_upper
                (net_of (listing [coin "BTC" 1; coin "ETH" 2; coin "SOL" 3])
                   ["BTC/USDT"; "ETH/USDT"; "SOL/USDT"]%string)
                (lit "key") top_pairs_txt 120 300 (World one_line_file [])).2))
    as Hrun by (vm_compute; reflexivity).
  split; [exact Hrun|]. split; [by vm_compute|].
  exact (report_counts_the_writes ascii_upper _ _ _ _ _ _ _ Hrun).
Defined.

(** A watchlist path that cannot be opened. *)
Lemma permission_error_reaches_caller_witness :
  matched_pairs_of ascii_upper two_coins three_bases 120
  = Ok [lit "BTC/USDT"; lit "ETH/USDT"]
  ∧ locked_file !! top_pairs_txt = Some NoAccess
  ∧ match_and_save ascii_upper two_coins three_bases top_pairs_txt 120
      (World locked_file [])
    = (Raise PermissionError, World locked_file ([] ++ [EvOpen top_pairs_txt ModeR])).
Proof.
  assert (matched_pairs_of ascii_upper two_coins three_bases 120
          = Ok [lit "BTC/USDT"; lit "ETH/USDT"]) as Hm by (vm_compute; reflexivity).
  assert (locked_file !! top_pairs_txt = Some NoAccess) as Hf
    by (vm_compute; reflexivity).
  split; [exact Hm|]. split; [exact Hf|].
  exact (permission_error_reaches_caller ascii_upper _ _ _ _ _ [] _ Hm Hf).
Defined.

(** A key the provider rejects with status 401. *)
Lemma error_status_ends_script_witness :
  let net := net_of denied_response ["BTC/USDT"]%string in
  http_get net (listings_request (lit "xxxx") 300
                  (lit "USD") (lit "market_cap") (lit "desc")) = Ok denied_response
  ∧ 400 ≤ status_code denied_response < 600
  ∧ save_top_pairs_by_market_cap ascii_upper net (lit "xxxx") top_pairs_txt 120 300
      (World one_line_file []) = (Raise HTTPError, World one_line_file []).
Proof.
  cbv zeta.
  assert (400 ≤ status_code denied_response < 600) as Hst by (cbn; lia).
  split; [reflexivity|]. split; [exact Hst|].
  exact (error_status_ends_script ascii_upper
           (net_of denied_response ["BTC/USDT"]%string) (lit "xxxx")
           top_pairs_txt 120 300 one_line_file denied_response eq_refl Hst).
Defined.

(** A good listing and an exchange that cannot be reached. *)
Lemma exchange_failure_ends_script_witness :
  let net := net_without_exchange (listing [coin "BTC" 1]) in
  fetch_top_coins_from_coinmarketcap net (lit "key") 300
    (lit "USD") (lit "market_cap") (lit "desc") (World one_line_file [])
  = (Ok (PyList [coin "BTC" 1]), World one_line_file [])
  ∧ load_markets net = Raise ExchangeError
  ∧ save_top_pairs_by_market_cap ascii_upper net (lit "key") top_pairs_txt 120 300
      (World one_line_file []) = (Raise ExchangeError, World one_line_file []).
Proof.
  cbv zeta.
  assert (fetch_top_coins_from_coinmarketcap
            (net_without_exchange (listing [coin "BTC" 1])) (lit "key") 300
            (lit "USD") (lit "market_cap") (lit "desc") (World one_line_file [])
          = (Ok (PyList [coin "BTC" 1]), World one_line_file [])) as Hfetch
    by (vm_compute; reflexivity).
  split; [exact Hfetch|]. split; [reflexivity|].
  exact (proj1 (exchange_failure_ends_script ascii_upper _ _ top_pairs_txt 120 _
                  _ _ _ _ Hfetch eq_refl)).
Defined.


(** The script's own call on a listing of two coins, with and without
    the key in the environment. *)
Example main_runs :
  let net := net_of (listing [coin "BTC" 1; coin "ETH" 2])
               ["BTC/USDT"; "ETH/USDT"]%string in
  let run1 := main ascii_upper net ∅ (World ∅ []) in
  let run2 := main ascii_upper net {[ lit "CMC_API_KEY" := lit "k" ]} (World ∅ []) in
  run1 = run2
  ∧ run1.1 = Ok ()
  ∧ fs run1.2
    = {[ lit "top_pairs.txt" := Regular (line "BTC/USDT" ++ line "ETH/USDT") ]}.
Proof. cbv zeta. split_and!; by vm_compute. Qed.
